(** * Mattermost custom resource utilities (apis/mattermost/v1beta1)

    A shallow embedding of [mattermost_utils.go]: defaulting of a
    [Mattermost] resource ([SetDefaults]), the resolved view of its ingress
    settings, the image reference, the container lookup and the three label
    maps, followed by the properties the specification states about them. *)

From Stdlib Require Import Ascii String.
From stdpp Require Import base strings gmap list fin_maps.

Local Open Scope string_scope.

(** ** The parts of Go's [strings] and [fmt] packages the file calls *)

Module GoStrings.

(** [strings.HasPrefix s prefix]. *)
Fixpoint HasPrefix (s prefix : string) {struct prefix} : bool :=
  match prefix with
  | EmptyString => true
  | String p prefix' =>
      match s with
      | EmptyString => false
      | String c s' => Ascii.eqb c p && HasPrefix s' prefix'
      end
  end.

(** [strings.Contains s substr]: [substr] starts at some offset of [s]. *)
Fixpoint Contains (s substr : string) : bool :=
  HasPrefix s substr
  || match s with
     | EmptyString => false
     | String _ s' => Contains s' substr
     end.

(** The scan of [strings.ReplaceAll]: left to right, without overlap.
    [skip] counts the bytes of a match of [old] that are still to be
    dropped after [new] has been written for it. *)
Fixpoint replace_from (skip : nat) (s old new : string) : string :=
  match s with
  | EmptyString => EmptyString
  | String c s' =>
      match skip with
      | S k => replace_from k s' old new
      | O =>
          if HasPrefix s old
          then new +:+ replace_from (String.length old - 1) s' old new
          else String c (replace_from 0 s' old new)
      end
  end.

(** [strings.ReplaceAll s old new] for a non-empty [old] (Go treats an
    empty [old] apart, by inserting [new] around every rune; the file
    never calls it that way). *)
Definition ReplaceAll (s old new : string) : string :=
  replace_from 0 s old new.

(** [fmt.Sprintf] with the format ["%s" sep "%s"] on two strings. *)
Definition Sprintf_s_s (sep a b : string) : string := a +:+ sep +:+ b.

End GoStrings.

(** ** The Kubernetes types the file reads *)

Module corev1.

(** [corev1.PullPolicy] is a string type. *)
Definition PullPolicy := string.
Definition PullIfNotPresent : PullPolicy := "IfNotPresent".

(** [corev1.Container]; the file reads [Name] only, the other fields are
    carried along so that two containers of one name can differ. *)
Record Container := {
  Name : string;
  Image : string;
  Command : list string;
  Args : list string;
}.

Record PodSpec := { Containers : list Container }.

Record PodTemplateSpec := { Spec : PodSpec }.

End corev1.

Module appsv1.

Record DeploymentSpec := { Template : corev1.PodTemplateSpec }.

Record Deployment := { Spec : DeploymentSpec }.

End appsv1.

(** ** Constants *)

Definition OperatorName : string := "mattermost-operator".
Definition DefaultMattermostImage : string := "mattermost/mattermost-enterprise-edition".
Definition DefaultMattermostVersion : string := "5.37.1".
Definition DefaultMattermostSize : string := "5000users".
Definition DefaultMattermostDatabaseType : string := "mysql".
Definition DefaultFilestoreStorageSize : string := "50Gi".
Definition DefaultStorageSize : string := "50Gi".
Definition DefaultPullPolicy : corev1.PullPolicy := corev1.PullIfNotPresent.
Definition ClusterLabel : string := "installation.mattermost.com/installation".
Definition ClusterResourceLabel : string := "installation.mattermost.com/resource".
Definition MattermostAppContainerName : string := "mattermost".

(** Go's [error]: [nil] or an error carrying a message. *)
Definition error := option string.
Definition errors_New (msg : string) : error := Some msg.

(** ** The custom resource *)

(** The structured ingress object, [*Ingress] in the spec. *)
Record IngressSpec := {
  Enabled : bool;
  Host : string;
  Annotations : gmap string string;
  TLSSecret : string;
}.

Section Resource.

(** Modelled from the spec: the types [FileStore] and [Database] of the two
    embedded sub-specs and their [SetDefaults] methods, which other files of
    the package declare. Each sub-spec exposes a [SetDefaults] operation that
    mutates itself in place and cannot fail: a total function on the
    sub-spec, and nothing more is known of it. *)
Context {FileStore Database : Type}.
Variable FileStore_SetDefaults : FileStore → FileStore.
Variable Database_SetDefaults : Database → Database.

(** [MattermostSpec], with the fields this file reads or writes. [Ingress]
    is a pointer ([None] is [nil]); a [nil] map and an empty map read the
    same and are not told apart. *)
Record MattermostSpec := {
  Image : string;
  Version : string;
  ImagePullPolicy : corev1.PullPolicy;
  Ingress : option IngressSpec;
  IngressName : string;
  IngressAnnotations : gmap string string;
  UseIngressTLS : bool;
  ResourceLabels : gmap string string;
  FileStore_ : FileStore;
  Database_ : Database;
}.

Record Mattermost := {
  Name : string;
  Spec : MattermostSpec;
}.

(** Field assignments [mm.Spec.f = v]. *)
Definition set_Spec (f : MattermostSpec → MattermostSpec) (mm : Mattermost) : Mattermost :=
  {| Name := Name mm; Spec := f (Spec mm) |}.

Definition set_Image (v : string) (s : MattermostSpec) : MattermostSpec :=
  {| Image := v; Version := Version s; ImagePullPolicy := ImagePullPolicy s;
     Ingress := Ingress s; IngressName := IngressName s;
     IngressAnnotations := IngressAnnotations s; UseIngressTLS := UseIngressTLS s;
     ResourceLabels := ResourceLabels s;
     FileStore_ := FileStore_ s; Database_ := Database_ s |}.

Definition set_Version (v : string) (s : MattermostSpec) : MattermostSpec :=
  {| Image := Image s; Version := v; ImagePullPolicy := ImagePullPolicy s;
     Ingress := Ingress s; IngressName := IngressName s;
     IngressAnnotations := IngressAnnotations s; UseIngressTLS := UseIngressTLS s;
     ResourceLabels := ResourceLabels s;
     FileStore_ := FileStore_ s; Database_ := Database_ s |}.

Definition set_ImagePullPolicy (v : corev1.PullPolicy) (s : MattermostSpec) : MattermostSpec :=
  {| Image := Image s; Version := Version s; ImagePullPolicy := v;
     Ingress := Ingress s; IngressName := IngressName s;
     IngressAnnotations := IngressAnnotations s; UseIngressTLS := UseIngressTLS s;
     ResourceLabels := ResourceLabels s;
     FileStore_ := FileStore_ s; Database_ := Database_ s |}.

Definition set_FileStore (v : FileStore) (s : MattermostSpec) : MattermostSpec :=
  {| Image := Image s; Version := Version s; ImagePullPolicy := ImagePullPolicy s;
     Ingress := Ingress s; IngressName := IngressName s;
     IngressAnnotations := IngressAnnotations s; UseIngressTLS := UseIngressTLS s;
     ResourceLabels := ResourceLabels s;
     FileStore_ := v; Database_ := Database_ s |}.

Definition set_Database (v : Database) (s : MattermostSpec) : MattermostSpec :=
  {| Image := Image s; Version := Version s; ImagePullPolicy := ImagePullPolicy s;
     Ingress := Ingress s; IngressName := IngressName s;
     IngressAnnotations := IngressAnnotations s; UseIngressTLS := UseIngressTLS s;
     ResourceLabels := ResourceLabels s;
     FileStore_ := FileStore_ s; Database_ := v |}.

(** *** The resolved ingress view *)

(** [IngressEnabled] determines whether the ingress should be created. *)
Definition IngressEnabled (mm : Mattermost) : bool :=
  match Ingress (Spec mm) with
  | Some ing => Enabled ing
  | None => true
  end.

Definition GetIngressHost (mm : Mattermost) : string :=
  match Ingress (Spec mm) with
  | None => IngressName (Spec mm)
  | Some ing => Host ing
  end.

Definition GetIngresAnnotations (mm : Mattermost) : gmap string string :=
  match Ingress (Spec mm) with
  | None => IngressAnnotations (Spec mm)
  | Some ing => Annotations ing
  end.

Definition defaultTLSSecret (mm : Mattermost) : string :=
  GoStrings.ReplaceAll (GetIngressHost mm) "." "-" +:+ "-tls-cert".

Definition GetIngressTLSSecret (mm : Mattermost) : string :=
  match Ingress (Spec mm) with
  | Some ing => TLSSecret ing
  | None => if UseIngressTLS (Spec mm) then defaultTLSSecret mm else ""
  end.

(** *** Defaulting *)

(** [SetDefaults] updates its receiver in place and hands two of its
    fields to methods of other files. A run is a state transformer over the
    receiver and the record of the delegated calls made so far. *)
Inductive Call := FileStore_SetDefaults_call | Database_SetDefaults_call.

Record Machine := {
  receiver : Mattermost;
  calls : list Call;
}.

Definition Exec (A : Type) : Type := Machine → A * Machine.

#[export] Instance Exec_ret : MRet Exec := λ A a σ, (a, σ).
#[export] Instance Exec_bind : MBind Exec :=
  λ A B f m σ, let '(a, σ') := m σ in f a σ'.

(** Read the receiver. *)
Definition load : Exec Mattermost := λ σ, (receiver σ, σ).

(** Assign to a field of [mm.Spec]. *)
Definition assign (f : MattermostSpec → MattermostSpec) : Exec unit :=
  λ σ, (tt, {| receiver := set_Spec f (receiver σ); calls := calls σ |}).

(** What a delegated method does to the receiver. *)
Definition effect (c : Call) (s : MattermostSpec) : MattermostSpec :=
  match c with
  | FileStore_SetDefaults_call => set_FileStore (FileStore_SetDefaults (FileStore_ s)) s
  | Database_SetDefaults_call => set_Database (Database_SetDefaults (Database_ s)) s
  end.

(** Call a delegated method on its field of [mm.Spec]. *)
Definition invoke (c : Call) : Exec unit :=
  λ σ, (tt, {| receiver := set_Spec (effect c) (receiver σ); calls := calls σ ++ [c] |}).

(** An [if] without [else] around a statement. *)
Definition when (b : bool) (body : Exec unit) : Exec unit :=
  if b then body else mret tt.

Definition SetDefaults : Exec error :=
  mm ← load;
  if IngressEnabled mm && String.eqb (GetIngressHost mm) ""
  then mret (errors_New "ingress.host required, but not set")
  else
    mm ← load;
    when (String.eqb (Image (Spec mm)) "") (assign (set_Image DefaultMattermostImage));;
    mm ← load;
    when (String.eqb (Version (Spec mm)) "") (assign (set_Version DefaultMattermostVersion));;
    mm ← load;
    when (String.eqb (ImagePullPolicy (Spec mm)) "") (assign (set_ImagePullPolicy DefaultPullPolicy));;
    invoke FileStore_SetDefaults_call;;
    invoke Database_SetDefaults_call;;
    mret None.

(** What a caller of [mm.SetDefaults()] observes: the returned error, the
    receiver afterwards and the delegated calls made, in order. *)
Record Outcome := {
  returned : error;
  after : Mattermost;
  delegated : list Call;
}.

Definition call_SetDefaults (mm : Mattermost) : Outcome :=
  let '(e, σ) := SetDefaults {| receiver := mm; calls := [] |} in
  {| returned := e; after := receiver σ; delegated := calls σ |}.

(** *** Image reference *)

Definition GetImageName (mm : Mattermost) : string :=
  if GoStrings.Contains (Version (Spec mm)) "sha256:"
  then GoStrings.Sprintf_s_s "@" (Image (Spec mm)) (Version (Spec mm))
  else GoStrings.Sprintf_s_s ":" (Image (Spec mm)) (Version (Spec mm)).

Definition GetProductionDeploymentName (mm : Mattermost) : string := Name mm.

(** *** Labels *)

(** [MattermostResourceLabels] builds a fresh map at every call. *)
Definition MattermostResourceLabels (name : string) : gmap string string :=
  {[ ClusterResourceLabel := name ]}.

Definition MattermostSelectorLabels (name : string) : gmap string string :=
  let l := MattermostResourceLabels name in
  let l := <[ClusterLabel := name]> l in
  let l := <["app" := MattermostAppContainerName]> l in
  l.

(** The loop [for k, v := range m { l[k] = v }], where [order] is the
    sequence in which the run visits the entries of [m]. *)
Definition range_assign (order : list (string * string)) (l : gmap string string)
  : gmap string string :=
  foldl (λ l kv, <[kv.1 := kv.2]> l) l order.

(** The body of [MattermostLabels] when the [range] over
    [mm.Spec.ResourceLabels] visits the entries in the sequence [order]; Go
    leaves that sequence open. *)
Definition MattermostLabels_visiting (order : list (string * string))
    (name : string) : gmap string string :=
  let l := MattermostResourceLabels name in
  let l := <[ClusterLabel := name]> l in
  let l := <["app" := MattermostAppContainerName]> l in
  range_assign order l.

(** [MattermostLabels], with the entries visited as [map_to_list] lists them. *)
Definition MattermostLabels (mm : Mattermost) (name : string) : gmap string string :=
  MattermostLabels_visiting (map_to_list (ResourceLabels (Spec mm))) name.

End Resource.

Arguments MattermostSpec : clear implicits.
Arguments Mattermost : clear implicits.
Arguments Call : clear implicits.
Arguments Machine : clear implicits.
Arguments Outcome : clear implicits.

(** ** Container lookup *)

(** [getContainerByName] returns the address of the loop variable, which
    holds a copy of the element: the result is a container value, or [None]
    for [nil]. *)
Fixpoint getContainerByName (containers : list corev1.Container) (containerName : string)
  : option corev1.Container :=
  match containers with
  | [] => None
  | container :: rest =>
      if String.eqb (corev1.Name container) containerName
      then Some container
      else getContainerByName rest containerName
  end.

(** [deployment] is a pointer that the function dereferences at once; it is
    taken here as the deployment it points to. *)
Definition getDeploymentContainerByName (deployment : appsv1.Deployment)
    (containerName : string) : option corev1.Container :=
  getContainerByName
    (corev1.Containers (corev1.Spec (appsv1.Template (appsv1.Spec deployment))))
    containerName.

Definition GetMattermostAppContainerFromDeployment (deployment : appsv1.Deployment)
  : option corev1.Container :=
  getDeploymentContainerByName deployment MattermostAppContainerName.

Definition GetMattermostAppContainer (containers : list corev1.Container)
  : option corev1.Container :=
  getContainerByName containers MattermostAppContainerName.

(** ** The specification's wording

    Two notions the specification uses, written independently of the code
    above, to compare the code with. *)

(** [sub] is a literal substring of [s]. *)
Definition is_substring (sub s : string) : Prop :=
  ∃ pre post, s = pre +:+ sub +:+ post.

(** [s] with every byte [old] replaced by [new]. *)
Fixpoint replace_every_byte (old new : Ascii.ascii) (s : string) : string :=
  match s with
  | EmptyString => EmptyString
  | String c s' =>
      String (if Ascii.eqb c old then new else c) (replace_every_byte old new s')
  end.

(** ** Sub-specs for the examples

    The examples below need some [FileStore] and [Database] to run on. These
    two are small stand-ins with one and two defaulted fields; nothing proved
    about [SetDefaults] depends on them. *)

Module Sample.

Record FileStore := { StorageSize : string }.

Definition FileStore_SetDefaults (fs : FileStore) : FileStore :=
  if String.eqb (StorageSize fs) ""
  then {| StorageSize := DefaultFilestoreStorageSize |}
  else fs.

Record Database := { DBType : string; DBStorageSize : string }.

Definition Database_SetDefaults (db : Database) : Database :=
  {| DBType := if String.eqb (DBType db) "" then DefaultMattermostDatabaseType else DBType db;
     DBStorageSize := if String.eqb (DBStorageSize db) "" then DefaultStorageSize
                      else DBStorageSize db |}.

(** A spec with nothing set but the legacy host. *)
Definition legacy (host : string) (tls : bool) : Mattermost FileStore Database :=
  {| Name := "team-a";
     Spec := {| Image := ""; Version := ""; ImagePullPolicy := "";
                Ingress := None; IngressName := host;
                IngressAnnotations := ∅; UseIngressTLS := tls;
                ResourceLabels := ∅;
                FileStore_ := {| StorageSize := "" |};
                Database_ := {| DBType := ""; DBStorageSize := "" |} |} |}.

(** A spec with the structured ingress object and conflicting legacy fields. *)
Definition structured (ing : IngressSpec) : Mattermost FileStore Database :=
  {| Name := "team-a";
     Spec := {| Image := "registry.example.com/mm"; Version := "7.1.0";
                ImagePullPolicy := "Always";
                Ingress := Some ing; IngressName := "legacy.example.com";
                IngressAnnotations := {[ "legacy" := "yes" ]}; UseIngressTLS := true;
                ResourceLabels := {[ "app" := "custom" ]};
                FileStore_ := {| StorageSize := "10Gi" |};
                Database_ := {| DBType := "postgres"; DBStorageSize := "" |} |} |}.

(** A spec with ingress switched off and a given image and version. *)
Definition pinned (image version : string) : Mattermost FileStore Database :=
  {| Name := "team-a";
     Spec := {| Image := image; Version := version; ImagePullPolicy := "";
                Ingress := Some {| Enabled := false; Host := ""; Annotations := ∅;
                                   TLSSecret := "" |};
                IngressName := ""; IngressAnnotations := ∅; UseIngressTLS := false;
                ResourceLabels := {[ "team" := "a"; "tier" := "chat" ]};
                FileStore_ := {| StorageSize := "" |};
                Database_ := {| DBType := ""; DBStorageSize := "" |} |} |}.

Definition run_SetDefaults := call_SetDefaults FileStore_SetDefaults Database_SetDefaults.

(** Three containers, two of them of one name. *)
Definition proxy : corev1.Container :=
  {| corev1.Name := "proxy"; corev1.Image := "envoyproxy/envoy:v1.20";
     corev1.Command := []; corev1.Args := [] |}.

Definition app_first : corev1.Container :=
  {| corev1.Name := "mattermost"; corev1.Image := "mattermost/mattermost-enterprise-edition:5.37.1";
     corev1.Command := []; corev1.Args := ["--config"; "a.json"] |}.

Definition app_second : corev1.Container :=
  {| corev1.Name := "mattermost"; corev1.Image := "mattermost/mattermost-team-edition:5.36.0";
     corev1.Command := []; corev1.Args := [] |}.

Definition deployment_of (containers : list corev1.Container) : appsv1.Deployment :=
  {| appsv1.Spec :=
       {| appsv1.Template := {| corev1.Spec := {| corev1.Containers := containers |} |} |} |}.

End Sample.

(** * Properties *)

(** ** Strings *)

Section StringFacts.

Lemma HasPrefix_app (p rest : string) : GoStrings.HasPrefix (p +:+ rest) p = true.
Proof.
  induction p as [|c p IH]; simpl; [done|].
  by rewrite Ascii.eqb_refl, IH.
Qed.

Lemma HasPrefix_inv (s p : string) :
  GoStrings.HasPrefix s p = true → ∃ rest, s = p +:+ rest.
Proof.
  revert s. induction p as [|c p IH]; intros s H; simpl in *.
  - by exists s.
  - destruct s as [|d s]; [done|].
    apply andb_true_iff in H as [Hc Hp].
    apply Ascii.eqb_eq in Hc as ->.
    destruct (IH _ Hp) as [rest ->]. by exists rest.
Qed.

(** [strings.Contains] decides the literal-substring relation. *)
Lemma Contains_is_substring (s sub : string) :
  GoStrings.Contains s sub = true ↔ is_substring sub s.
Proof.
  split.
  - induction s as [|c s IH]; simpl; intros H.
    + rewrite orb_false_r in H. apply HasPrefix_inv in H as [rest ->].
      by exists "", rest.
    + apply orb_true_iff in H as [H|H].
      * apply HasPrefix_inv in H as [rest ->]. by exists "", rest.
      * destruct (IH H) as (pre & post & ->). by exists (String c pre), post.
  - intros (pre & post & ->).
    induction pre as [|c pre IH]; simpl.
    + pose proof (HasPrefix_app sub post) as Hp.
      destruct (sub +:+ post); simpl; by rewrite Hp.
    + rewrite IH. apply orb_true_r.
Qed.

Lemma Contains_false_not_substring (s sub : string) :
  GoStrings.Contains s sub = false ↔ ¬ is_substring sub s.
Proof.
  rewrite <- Contains_is_substring. by destruct (GoStrings.Contains s sub).
Qed.

(** With a one-byte [old] and a one-byte [new], [strings.ReplaceAll] rewrites
    byte by byte. *)
Lemma ReplaceAll_one_byte (s : string) (old new : Ascii.ascii) :
  GoStrings.ReplaceAll s (String old "") (String new "") = replace_every_byte old new s.
Proof.
  unfold GoStrings.ReplaceAll.
  induction s as [|c s IH]; simpl; [done|].
  rewrite andb_true_r.
  destruct (Ascii.eqb c old); simpl; by rewrite IH.
Qed.

End StringFacts.

(** ** Defaulting *)

Section Defaulting.

Context {FileStore Database : Type}.
Variable FileStore_SetDefaults : FileStore → FileStore.
Variable Database_SetDefaults : Database → Database.

Local Abbreviation resource := (Mattermost FileStore Database).
Local Abbreviation resolve := (call_SetDefaults FileStore_SetDefaults Database_SetDefaults).

(** The check at the head of [SetDefaults]. *)
Local Abbreviation host_missing mm :=
  (IngressEnabled mm && String.eqb (GetIngressHost mm) "").

Lemma host_missing_true (mm : resource) :
  host_missing mm = true ↔ IngressEnabled mm = true ∧ GetIngressHost mm = "".
Proof. by rewrite andb_true_iff, String.eqb_eq. Qed.

(** When the check fires, the call returns at once. *)
Lemma SetDefaults_refused (mm : resource) :
  host_missing mm = true →
  resolve mm =
    {| returned := errors_New "ingress.host required, but not set";
       after := mm; delegated := [] |}.
Proof.
  intros H. unfold call_SetDefaults, SetDefaults, load, mbind, Exec_bind.
  simpl. by rewrite H.
Qed.

(** When it does not, the three fields are filled in and both delegated
    methods run, the file store first. *)
Lemma SetDefaults_accepted (mm : resource) :
  host_missing mm = false →
  resolve mm =
    {| returned := None;
       after :=
         {| Name := Name mm;
            Spec :=
              {| Image := if String.eqb (Image (Spec mm)) ""
                          then DefaultMattermostImage else Image (Spec mm);
                 Version := if String.eqb (Version (Spec mm)) ""
                            then DefaultMattermostVersion else Version (Spec mm);
                 ImagePullPolicy := if String.eqb (ImagePullPolicy (Spec mm)) ""
                                    then DefaultPullPolicy else ImagePullPolicy (Spec mm);
                 Ingress := Ingress (Spec mm);
                 IngressName := IngressName (Spec mm);
                 IngressAnnotations := IngressAnnotations (Spec mm);
                 UseIngressTLS := UseIngressTLS (Spec mm);
                 ResourceLabels := ResourceLabels (Spec mm);
                 FileStore_ := FileStore_SetDefaults (FileStore_ (Spec mm));
                 Database_ := Database_SetDefaults (Database_ (Spec mm)) |} |};
       delegated := [FileStore_SetDefaults_call; Database_SetDefaults_call] |}.
Proof.
  intros H. destruct mm as [n [img ver pol ing iname iann tls rl fs db]].
  unfold call_SetDefaults, SetDefaults, load, when, assign, invoke, mbind, Exec_bind,
    mret, Exec_ret.
  simpl in *. rewrite H. simpl.
  destruct (String.eqb img ""); simpl;
    destruct (String.eqb ver ""); simpl;
    destruct (String.eqb pol ""); reflexivity.
Qed.

Lemma returned_error_iff (mm : resource) :
  returned (resolve mm) ≠ None ↔ host_missing mm = true.
Proof.
  destruct (host_missing mm) eqn:H.
  - rewrite (SetDefaults_refused mm H). simpl. by split.
  - rewrite (SetDefaults_accepted mm H). simpl. by split.
Qed.

Lemma returned_nil_iff (mm : resource) :
  returned (resolve mm) = None ↔ host_missing mm = false.
Proof.
  destruct (host_missing mm) eqn:H.
  - rewrite (SetDefaults_refused mm H). simpl. by split.
  - rewrite (SetDefaults_accepted mm H). simpl. by split.
Qed.

(** C1. [SetDefaults] returns an error exactly when ingress is enabled (a
    present [Ingress] object with [Enabled] set, or no [Ingress] object at
    all) and the resolvable host ([Ingress.Host] when the object is present,
    [IngressName] otherwise) is empty. A spec whose [Ingress] object has
    [Enabled] unset is accepted whatever its hosts are, and the error, when
    there is one, is always the same one. *)
Theorem SetDefaults_error_iff (mm : resource) :
  let out := call_SetDefaults FileStore_SetDefaults Database_SetDefaults mm in
  (returned out ≠ None ↔ IngressEnabled mm = true ∧ GetIngressHost mm = "")
  ∧ (returned out ≠ None ↔
       (∃ ing, Ingress (Spec mm) = Some ing ∧ Enabled ing = true ∧ Host ing = "")
       ∨ (Ingress (Spec mm) = None ∧ IngressName (Spec mm) = ""))
  ∧ (∀ ing, Ingress (Spec mm) = Some ing → Enabled ing = false →
       returned out = None)
  ∧ (returned out = None
     ∨ returned out = errors_New "ingress.host required, but not set").
Proof.
  intros out. subst out. split; [|split; [|split]].
  - by rewrite returned_error_iff, host_missing_true.
  - rewrite returned_error_iff, host_missing_true.
    unfold IngressEnabled, GetIngressHost. split.
    + intros [He Hh].
      destruct (Ingress (Spec mm)) as [ing|]; [left; by exists ing | by right].
    + intros [(ing & -> & He & Hh) | [-> Hh]]; done.
  - intros ing Hi He. apply returned_nil_iff.
    unfold IngressEnabled. by rewrite Hi, He.
  - destruct (host_missing mm) eqn:H.
    + right. by rewrite (SetDefaults_refused mm H).
    + left. by rewrite (SetDefaults_accepted mm H).
Qed.

(** C10. A call that returns an error has changed nothing and delegated
    nothing: the receiver afterwards is the receiver before, in particular
    its [Image], [Version] and [ImagePullPolicy], and neither
    [FileStore.SetDefaults] nor [Database.SetDefaults] has been called. *)
Theorem SetDefaults_error_changes_nothing (mm : resource) :
  let out := call_SetDefaults FileStore_SetDefaults Database_SetDefaults mm in
  returned out ≠ None →
  after out = mm
  ∧ delegated out = []
  ∧ Image (Spec (after out)) = Image (Spec mm)
  ∧ Version (Spec (after out)) = Version (Spec mm)
  ∧ ImagePullPolicy (Spec (after out)) = ImagePullPolicy (Spec mm)
  ∧ FileStore_ (Spec (after out)) = FileStore_ (Spec mm)
  ∧ Database_ (Spec (after out)) = Database_ (Spec mm).
Proof.
  intros out H. subst out. apply returned_error_iff in H.
  rewrite (SetDefaults_refused mm H). simpl. done.
Qed.

(** C4. After a call that succeeds, an [Image], [Version] or
    [ImagePullPolicy] that was empty holds its default, and one that was not
    empty is as it was. *)
Theorem SetDefaults_fills_empty_fields (mm : resource) :
  let out := call_SetDefaults FileStore_SetDefaults Database_SetDefaults mm in
  returned out = None →
  (Image (Spec mm) = "" →
     Image (Spec (after out)) = "mattermost/mattermost-enterprise-edition")
  ∧ (Image (Spec mm) ≠ "" → Image (Spec (after out)) = Image (Spec mm))
  ∧ (Version (Spec mm) = "" → Version (Spec (after out)) = "5.37.1")
  ∧ (Version (Spec mm) ≠ "" → Version (Spec (after out)) = Version (Spec mm))
  ∧ (ImagePullPolicy (Spec mm) = "" →
       ImagePullPolicy (Spec (after out)) = "IfNotPresent")
  ∧ (ImagePullPolicy (Spec mm) ≠ "" →
       ImagePullPolicy (Spec (after out)) = ImagePullPolicy (Spec mm)).
Proof.
  intros out H. subst out. apply returned_nil_iff in H.
  rewrite (SetDefaults_accepted mm H). simpl.
  repeat split; intros E;
    solve [ by rewrite E | by apply String.eqb_neq in E; rewrite E ].
Qed.

(** Filling an empty field with a non-empty default is stable. *)
Lemma fill_twice (d a : string) :
  String.eqb d "" = false →
  (if String.eqb (if String.eqb a "" then d else a) ""
   then d else (if String.eqb a "" then d else a))
  = (if String.eqb a "" then d else a).
Proof.
  intros Hd. destruct (String.eqb a "") eqn:E; [by rewrite Hd | by rewrite E].
Qed.

(** A second call on the result of a successful call succeeds as well, and
    it returns the receiver as it found it exactly when the two delegated
    methods have nothing left to do on their fields. *)
Lemma SetDefaults_again (mm : resource) :
  returned (resolve mm) = None →
  returned (resolve (after (resolve mm))) = None
  ∧ (after (resolve (after (resolve mm))) = after (resolve mm) ↔
       FileStore_SetDefaults (FileStore_SetDefaults (FileStore_ (Spec mm)))
         = FileStore_SetDefaults (FileStore_ (Spec mm))
       ∧ Database_SetDefaults (Database_SetDefaults (Database_ (Spec mm)))
           = Database_SetDefaults (Database_ (Spec mm))).
Proof.
  intros H. apply returned_nil_iff in H.
  rewrite (SetDefaults_accepted mm H). simpl.
  match goal with |- context [resolve ?m] => set (mm' := m) end.
  assert (H' : host_missing mm' = false) by exact H.
  rewrite (SetDefaults_accepted mm' H'). subst mm'. simpl.
  split; [done|].
  rewrite !fill_twice by done.
  split.
  - intros E. split.
    + exact (f_equal (λ m : resource, FileStore_ (Spec m)) E).
    + exact (f_equal (λ m : resource, Database_ (Spec m)) E).
  - by intros [-> ->].
Qed.


(** With delegated methods that are themselves stable under repetition, so
    is [SetDefaults]. *)
Corollary SetDefaults_idempotent :
  (∀ fs, FileStore_SetDefaults (FileStore_SetDefaults fs) = FileStore_SetDefaults fs) →
  (∀ db, Database_SetDefaults (Database_SetDefaults db) = Database_SetDefaults db) →
  ∀ mm : resource,
    let once := call_SetDefaults FileStore_SetDefaults Database_SetDefaults mm in
    let twice :=
      call_SetDefaults FileStore_SetDefaults Database_SetDefaults (after once) in
    returned once = None →
    returned twice = None ∧ after twice = after once.
Proof.
  intros Hfs Hdb mm once twice H. subst once twice.
  destruct (SetDefaults_again mm H) as [Hok Hsame].
  split; [exact Hok|]. apply Hsame. by split.
Qed.

End Defaulting.

(** ** The resolved ingress view and the image reference *)

Section IngressView.

Context {FileStore Database : Type}.

Local Abbreviation resource := (Mattermost FileStore Database).

(** C2. With the [Ingress] object present, the four resolved values are the
    object's own fields, so any two specs carrying the same object resolve
    alike whatever their [IngressName], [IngressAnnotations] and
    [UseIngressTLS] are. With the object absent, ingress is enabled and the
    host and the annotations are the legacy ones. *)
Theorem Ingress_object_takes_precedence (mm : resource) :
  (∀ ing, Ingress (Spec mm) = Some ing →
     (IngressEnabled mm = Enabled ing
      ∧ GetIngressHost mm = Host ing
      ∧ GetIngresAnnotations mm = Annotations ing
      ∧ GetIngressTLSSecret mm = TLSSecret ing)
     ∧ (∀ other : resource, Ingress (Spec other) = Some ing →
          IngressEnabled other = IngressEnabled mm
          ∧ GetIngressHost other = GetIngressHost mm
          ∧ GetIngresAnnotations other = GetIngresAnnotations mm
          ∧ GetIngressTLSSecret other = GetIngressTLSSecret mm))
  ∧ (Ingress (Spec mm) = None →
       IngressEnabled mm = true
       ∧ GetIngressHost mm = IngressName (Spec mm)
       ∧ GetIngresAnnotations mm = IngressAnnotations (Spec mm)).
Proof.
  unfold IngressEnabled, GetIngressHost, GetIngresAnnotations, GetIngressTLSSecret.
  split.
  - intros ing ->. split; [done|].
    intros other ->. done.
  - intros ->. done.
Qed.

(** C5. With the [Ingress] object absent, the TLS secret name is empty when
    [UseIngressTLS] is unset, and otherwise it is the legacy host with every
    ['.'] turned into ['-'], followed by ["-tls-cert"]. *)
Theorem legacy_TLS_secret (mm : resource) :
  Ingress (Spec mm) = None →
  (UseIngressTLS (Spec mm) = false → GetIngressTLSSecret mm = "")
  ∧ (UseIngressTLS (Spec mm) = true →
       GetIngressTLSSecret mm
       = replace_every_byte "."%char "-"%char (IngressName (Spec mm)) +:+ "-tls-cert")
  ∧ (UseIngressTLS (Spec mm) = true → IngressName (Spec mm) = "chat.example.com" →
       GetIngressTLSSecret mm = "chat-example-com-tls-cert").
Proof.
  intros Hi.
  assert (Htls : UseIngressTLS (Spec mm) = true →
                 GetIngressTLSSecret mm
                 = replace_every_byte "."%char "-"%char (IngressName (Spec mm)) +:+ "-tls-cert").
  { intros Hu. unfold GetIngressTLSSecret, defaultTLSSecret, GetIngressHost.
    rewrite Hi, Hu. by rewrite ReplaceAll_one_byte. }
  split; [|split].
  - intros Hu. unfold GetIngressTLSSecret. by rewrite Hi, Hu.
  - exact Htls.
  - intros Hu Hn. rewrite (Htls Hu), Hn. reflexivity.
Qed.

(** C8. The image reference joins image and version with ["@"] when the
    version contains ["sha256:"], and with [":"] when it does not. *)
Theorem GetImageName_format (mm : resource) :
  (is_substring "sha256:" (Version (Spec mm)) →
     GetImageName mm = Image (Spec mm) +:+ "@" +:+ Version (Spec mm))
  ∧ (¬ is_substring "sha256:" (Version (Spec mm)) →
       GetImageName mm = Image (Spec mm) +:+ ":" +:+ Version (Spec mm))
  ∧ (Image (Spec mm) = "mattermost/mattermost-enterprise-edition" →
     Version (Spec mm) = "5.37.1" →
       GetImageName mm = "mattermost/mattermost-enterprise-edition:5.37.1").
Proof.
  unfold GetImageName, GoStrings.Sprintf_s_s.
  split; [|split].
  - intros H. apply Contains_is_substring in H. by rewrite H.
  - intros H. apply Contains_false_not_substring in H. by rewrite H.
  - intros -> ->. reflexivity.
Qed.

End IngressView.

(** ** Labels *)

Section Labels.

Context {FileStore Database : Type}.

Local Abbreviation resource := (Mattermost FileStore Database).

(** Assigning the entries of a sequence without repeated keys, one after the
    other, overlays them on the map assigned to. *)
Lemma range_assign_overlay (order : list (string * string)) (l : gmap string string) :
  NoDup (order.*1) →
  range_assign order l = list_to_map order ∪ l.
Proof.
  unfold range_assign. revert l.
  induction order as [|[k v] order IH]; intros l Hnd.
  - simpl. by rewrite (left_id_L ∅ (∪)).
  - rewrite fmap_cons in Hnd. apply NoDup_cons in Hnd as [Hk Hnd].
    cbn [foldl fst snd]. rewrite (IH _ Hnd), list_to_map_cons, <- insert_union_l.
    symmetry. apply insert_union_r. by apply not_elem_of_list_to_map_1.
Qed.

(** Whatever sequence a [range] over a map takes, the outcome is the same. *)
Lemma range_assign_any_order (m l : gmap string string) (order : list (string * string)) :
  order ≡ₚ map_to_list m →
  range_assign order l = m ∪ l.
Proof.
  intros Hp.
  assert (Hnd : NoDup (order.*1)).
  { rewrite Hp. apply NoDup_fst_map_to_list. }
  rewrite (range_assign_overlay order l Hnd).
  by rewrite (list_to_map_proper order (map_to_list m) Hnd Hp), list_to_map_to_list.
Qed.

Lemma MattermostLabels_eq (mm : resource) (name : string) :
  MattermostLabels mm name = ResourceLabels (Spec mm) ∪ MattermostSelectorLabels name.
Proof.
  unfold MattermostLabels, MattermostLabels_visiting, MattermostSelectorLabels.
  by apply range_assign_any_order.
Qed.

(** C7. The selector labels of an installation [n] are the three entries
    resource label, cluster label and ["app"], and no other; the resource
    labels are the resource label alone. *)
Theorem selector_labels_exact (n : string) :
  (∀ k v, MattermostSelectorLabels n !! k = Some v ↔
     (k = "installation.mattermost.com/resource" ∧ v = n)
     ∨ (k = "installation.mattermost.com/installation" ∧ v = n)
     ∨ (k = "app" ∧ v = "mattermost"))
  ∧ size (MattermostSelectorLabels n) = 3
  ∧ MattermostResourceLabels n = {[ "installation.mattermost.com/resource" := n ]}.
Proof.
  unfold MattermostSelectorLabels, MattermostResourceLabels, ClusterLabel,
    ClusterResourceLabel, MattermostAppContainerName.
  split; [|split].
  - intros k v.
    rewrite !lookup_insert_Some, lookup_singleton_Some. split.
    + intros [[<- <-] | [_ [[<- <-] | [_ [<- <-]]]]]; auto.
    + intros [[-> ->] | [[-> ->] | [-> ->]]].
      * right. split; [done|]. right. done.
      * right. split; [done|]. left. done.
      * left. done.
  - rewrite !map_size_insert_None, map_size_singleton; [done| |].
    + by rewrite lookup_singleton_ne.
    + rewrite lookup_insert_ne by done. by rewrite lookup_singleton_ne.
  - done.
Qed.

(** C6. The full labels are the selector labels with [ResourceLabels] laid
    over them, in whatever sequence the [range] visits the entries: a key of
    [ResourceLabels] carries the user's value, any other key the selector's.
    With [ResourceLabels] being [{"app": "custom"}], ["app"] maps to
    ["custom"]. *)
Theorem MattermostLabels_overlay (mm : resource) (name : string)
    (order : list (string * string)) :
  order ≡ₚ map_to_list (ResourceLabels (Spec mm)) →
  MattermostLabels_visiting order name
    = ResourceLabels (Spec mm) ∪ MattermostSelectorLabels name
  ∧ MattermostLabels mm name = MattermostLabels_visiting order name
  ∧ (∀ k v, ResourceLabels (Spec mm) !! k = Some v →
       MattermostLabels_visiting order name !! k = Some v)
  ∧ (∀ k, ResourceLabels (Spec mm) !! k = None →
       MattermostLabels_visiting order name !! k = MattermostSelectorLabels name !! k)
  ∧ (ResourceLabels (Spec mm) = {[ "app" := "custom" ]} →
       MattermostLabels_visiting order name !! "app" = Some "custom").
Proof.
  intros Hp.
  assert (E : MattermostLabels_visiting order name
              = ResourceLabels (Spec mm) ∪ MattermostSelectorLabels name).
  { unfold MattermostLabels_visiting, MattermostSelectorLabels.
    by apply range_assign_any_order. }
  rewrite MattermostLabels_eq, E.
  split; [done|]. split; [done|]. split; [|split].
  - intros k v Hk. by apply lookup_union_Some_l.
  - intros k Hk. by apply lookup_union_r.
  - intros Hrl. apply lookup_union_Some_l. rewrite Hrl. apply lookup_singleton_eq.
Qed.

End Labels.

(** ** Container lookup *)

Section ContainerLookup.

Lemma getContainerByName_None (containers : list corev1.Container) (name : string) :
  getContainerByName containers name = None ↔
  ∀ c, c ∈ containers → corev1.Name c ≠ name.
Proof.
  induction containers as [|c0 cs IH]; simpl.
  - split; [|done]. intros _ c Hc. by apply elem_of_nil in Hc.
  - destruct (String.eqb (corev1.Name c0) name) eqn:E.
    + apply String.eqb_eq in E. split; [done|].
      intros H. destruct (H c0); [left | done].
    + apply String.eqb_neq in E. rewrite IH. split.
      * intros H c [->|Hc]%elem_of_cons; auto.
      * intros H c Hc. apply H. by right.
Qed.

Lemma getContainerByName_Some (containers : list corev1.Container) (name : string)
    (c : corev1.Container) :
  getContainerByName containers name = Some c ↔
  ∃ before rest,
    containers = (before ++ c :: rest)%list
    ∧ corev1.Name c = name
    ∧ ∀ b, b ∈ before → corev1.Name b ≠ name.
Proof.
  induction containers as [|c0 cs IH]; simpl.
  - split; [done|]. intros (before & rest & E & _). by destruct before.
  - destruct (String.eqb (corev1.Name c0) name) eqn:E.
    + apply String.eqb_eq in E. split.
      * intros [= <-]. exists [], cs. repeat split; [done|].
        intros b Hb. by apply elem_of_nil in Hb.
      * intros (before & rest & Hl & Hn & Hb).
        destruct before as [|b0 before]; simpl in Hl.
        -- by injection Hl as -> _.
        -- injection Hl as <- _. destruct (Hb c0); [left | done].
    + apply String.eqb_neq in E. rewrite IH. split.
      * intros (before & rest & -> & Hn & Hb).
        exists (c0 :: before), rest. repeat split; [done|].
        intros b [->|Hin]%elem_of_cons; auto.
      * intros (before & rest & Hl & Hn & Hb).
        destruct before as [|b0 before]; simpl in Hl.
        -- injection Hl as -> _. done.
        -- injection Hl as -> ->. exists before, rest. repeat split; [done|].
           intros b Hin. apply Hb. by right.
Qed.

(** C9. The lookup finds nothing in an empty list and in a list without a
    container of that name; in any other list it finds the first container
    of that name, in list order. The deployment variant is the same lookup
    on the containers of the deployment's pod template. *)
Theorem getContainerByName_first_match (containers : list corev1.Container)
    (name : string) :
  getContainerByName [] name = None
  ∧ ((∀ c, c ∈ containers → corev1.Name c ≠ name) →
       getContainerByName containers name = None)
  ∧ ((∃ c, c ∈ containers ∧ corev1.Name c = name) →
       ∃ c before rest,
         getContainerByName containers name = Some c
         ∧ containers = (before ++ c :: rest)%list
         ∧ corev1.Name c = name
         ∧ ∀ b, b ∈ before → corev1.Name b ≠ name)
  ∧ (∀ c, getContainerByName containers name = Some c ↔
       ∃ before rest,
         containers = (before ++ c :: rest)%list
         ∧ corev1.Name c = name
         ∧ ∀ b, b ∈ before → corev1.Name b ≠ name)
  ∧ (∀ deployment,
       corev1.Containers (corev1.Spec (appsv1.Template (appsv1.Spec deployment)))
         = containers →
       getDeploymentContainerByName deployment name
         = getContainerByName containers name).
Proof.
  split; [done|]. split; [|split; [|split]].
  - apply getContainerByName_None.
  - intros (c & Hin & Hn).
    destruct (getContainerByName containers name) as [c'|] eqn:E.
    + pose proof E as (before & rest & ? & ? & ?)%getContainerByName_Some.
      by exists c', before, rest.
    + destruct (proj1 (getContainerByName_None containers name) E c Hin Hn).
  - intros c. apply getContainerByName_Some.
  - intros deployment <-. done.
Qed.

End ContainerLookup.

(** ** The properties at work on concrete resources *)

Lemma Sample_FileStore_SetDefaults_twice (fs : Sample.FileStore) :
  Sample.FileStore_SetDefaults (Sample.FileStore_SetDefaults fs)
  = Sample.FileStore_SetDefaults fs.
Proof.
  destruct fs as [sz]. unfold Sample.FileStore_SetDefaults. simpl.
  destruct (String.eqb sz "") eqn:E; simpl; [done | by rewrite E].
Qed.

Lemma Sample_Database_SetDefaults_twice (db : Sample.Database) :
  Sample.Database_SetDefaults (Sample.Database_SetDefaults db)
  = Sample.Database_SetDefaults db.
Proof.
  destruct db as [ty sz]. unfold Sample.Database_SetDefaults. simpl.
  by rewrite !fill_twice.
Qed.

Lemma SetDefaults_error_iff_witness :
  returned (Sample.run_SetDefaults
              (Sample.structured {| Enabled := false; Host := ""; Annotations := ∅;
                                    TLSSecret := "" |})) = None
  ∧ returned (Sample.run_SetDefaults
                (Sample.structured {| Enabled := true; Host := ""; Annotations := ∅;
                                      TLSSecret := "" |})) ≠ None
  ∧ returned (Sample.run_SetDefaults (Sample.legacy "" false)) ≠ None.
Proof.
  split; [|split].
  - eapply (proj1 (proj2 (proj2 (SetDefaults_error_iff _ _ _)))); reflexivity.
  - apply (proj1 (SetDefaults_error_iff _ _ _)). split; reflexivity.
  - apply (proj1 (SetDefaults_error_iff _ _ _)). split; reflexivity.
Defined.

Lemma Ingress_object_takes_precedence_witness :
  GetIngressHost
    (Sample.structured {| Enabled := true; Host := "chat.example.com";
                          Annotations := ∅; TLSSecret := "chat-tls" |})
    = "chat.example.com"
  ∧ GetIngressTLSSecret
      (Sample.structured {| Enabled := true; Host := "chat.example.com";
                            Annotations := ∅; TLSSecret := "chat-tls" |})
    = "chat-tls"
  ∧ GetIngressHost (Sample.legacy "legacy.example.com" false) = "legacy.example.com".
Proof.
  pose (ing := {| Enabled := true; Host := "chat.example.com"; Annotations := ∅;
                  TLSSecret := "chat-tls" |}).
  destruct (proj1 (Ingress_object_takes_precedence (Sample.structured ing)) ing eq_refl)
    as [(_ & Hh & _ & Ht) _].
  destruct (proj2 (Ingress_object_takes_precedence
                     (Sample.legacy "legacy.example.com" false)) eq_refl)
    as (_ & Hl & _).
  split; [exact Hh | split; [exact Ht | exact Hl]].
Defined.



Lemma SetDefaults_idempotent_witness :
  returned (Sample.run_SetDefaults
              (after (Sample.run_SetDefaults (Sample.legacy "chat.example.com" true))))
    = None
  ∧ after (Sample.run_SetDefaults
             (after (Sample.run_SetDefaults (Sample.legacy "chat.example.com" true))))
    = after (Sample.run_SetDefaults (Sample.legacy "chat.example.com" true)).
Proof.
  apply (SetDefaults_idempotent Sample.FileStore_SetDefaults Sample.Database_SetDefaults
           Sample_FileStore_SetDefaults_twice Sample_Database_SetDefaults_twice
           (Sample.legacy "chat.example.com" true)).
  reflexivity.
Defined.

Lemma SetDefaults_fills_empty_fields_witness :
  Image (Spec (after (Sample.run_SetDefaults (Sample.pinned "" "7.1.0"))))
    = "mattermost/mattermost-enterprise-edition"
  ∧ Version (Spec (after (Sample.run_SetDefaults (Sample.pinned "" "7.1.0")))) = "7.1.0".
Proof.
  pose proof (SetDefaults_fills_empty_fields
                Sample.FileStore_SetDefaults Sample.Database_SetDefaults
                (Sample.pinned "" "7.1.0") eq_refl) as (Hi & _ & _ & Hv & _).
  split; [by apply Hi | by apply Hv].
Defined.

Lemma legacy_TLS_secret_witness :
  GetIngressTLSSecret (Sample.legacy "chat.example.com" true) = "chat-example-com-tls-cert"
  ∧ GetIngressTLSSecret (Sample.legacy "chat.example.com" false) = "".
Proof.
  split.
  - apply (legacy_TLS_secret (Sample.legacy "chat.example.com" true) eq_refl);
      reflexivity.
  - apply (legacy_TLS_secret (Sample.legacy "chat.example.com" false) eq_refl);
      reflexivity.
Defined.

Lemma MattermostLabels_overlay_witness :
  MattermostLabels_visiting [("app", "custom")] "team-a" !! "app" = Some "custom"
  ∧ MattermostLabels_visiting [("tier", "chat"); ("team", "a")] "team-a" !! "app"
    = Some "mattermost".
Proof.
  split.
  - refine (proj2 (proj2 (proj2 (proj2
      (MattermostLabels_overlay
         (Sample.structured {| Enabled := false; Host := ""; Annotations := ∅;
                               TLSSecret := "" |})
         "team-a" [("app", "custom")] _)))) eq_refl).
    vm_compute. reflexivity.
  - assert (Hp : [("tier", "chat"); ("team", "a")]
                 ≡ₚ map_to_list (ResourceLabels (Spec (Sample.pinned "" "")))).
    { vm_compute. apply perm_swap. }
    rewrite (proj1 (proj2 (proj2 (proj2
      (MattermostLabels_overlay (Sample.pinned "" "") "team-a"
         [("tier", "chat"); ("team", "a")] Hp)))) "app" eq_refl).
    reflexivity.
Defined.

Lemma selector_labels_exact_witness :
  MattermostSelectorLabels "team-a" !! "app" = Some "mattermost"
  ∧ MattermostSelectorLabels "team-a" !! "installation.mattermost.com/installation"
    = Some "team-a"
  ∧ MattermostSelectorLabels "team-a" !! "installation.mattermost.com/resource"
    = Some "team-a".
Proof.
  split; [|split]; apply (proj1 (selector_labels_exact "team-a")); auto.
Defined.

Lemma GetImageName_format_witness :
  GetImageName (Sample.pinned "img" "sha256:abcd") = "img@sha256:abcd"
  ∧ GetImageName (Sample.pinned "mattermost/mattermost-enterprise-edition" "5.37.1")
    = "mattermost/mattermost-enterprise-edition:5.37.1".
Proof.
  split.
  - apply (proj1 (GetImageName_format (Sample.pinned "img" "sha256:abcd"))).
    by exists "", "abcd".
  - apply (proj2 (proj2 (GetImageName_format
             (Sample.pinned "mattermost/mattermost-enterprise-edition" "5.37.1"))));
      reflexivity.
Defined.

Lemma getContainerByName_first_match_witness :
  (∃ c before rest,
     getContainerByName [Sample.proxy; Sample.app_first; Sample.app_second] "mattermost"
       = Some c
     ∧ [Sample.proxy; Sample.app_first; Sample.app_second] = (before ++ c :: rest)%list
     ∧ corev1.Name c = "mattermost"
     ∧ ∀ b, b ∈ before → corev1.Name b ≠ "mattermost")
  ∧ getContainerByName [Sample.proxy] "mattermost" = None
  ∧ getDeploymentContainerByName
      (Sample.deployment_of [Sample.proxy; Sample.app_first; Sample.app_second])
      "mattermost"
    = getContainerByName [Sample.proxy; Sample.app_first; Sample.app_second] "mattermost".
Proof.
  split; [|split].
  - apply (proj1 (proj2 (proj2 (getContainerByName_first_match
        [Sample.proxy; Sample.app_first; Sample.app_second] "mattermost")))).
    exists Sample.app_second. split; [|reflexivity]. right. right. left.
  - apply (proj1 (proj2 (getContainerByName_first_match [Sample.proxy] "mattermost"))).
    intros c Hc. apply list_elem_of_singleton in Hc as ->. discriminate.
  - apply (proj2 (proj2 (proj2 (proj2 (getContainerByName_first_match
        [Sample.proxy; Sample.app_first; Sample.app_second] "mattermost"))))).
    reflexivity.
Defined.

Lemma SetDefaults_error_changes_nothing_witness :
  after (Sample.run_SetDefaults (Sample.legacy "" true)) = Sample.legacy "" true
  ∧ delegated (Sample.run_SetDefaults (Sample.legacy "" true)) = [].
Proof.
  assert (H : returned (Sample.run_SetDefaults (Sample.legacy "" true)) ≠ None)
    by discriminate.
  destruct (SetDefaults_error_changes_nothing
              Sample.FileStore_SetDefaults Sample.Database_SetDefaults
              (Sample.legacy "" true) H) as (Ha & Hd & _).
  by split.
Defined.

(** The same, by running the code. *)

Example SetDefaults_on_a_bare_legacy_spec :
  returned (Sample.run_SetDefaults (Sample.legacy "chat.example.com" true)) = None
  ∧ delegated (Sample.run_SetDefaults (Sample.legacy "chat.example.com" true))
    = [FileStore_SetDefaults_call; Database_SetDefaults_call]
  ∧ ImagePullPolicy (Spec (after (Sample.run_SetDefaults
                                    (Sample.legacy "chat.example.com" true))))
    = "IfNotPresent".
Proof. repeat split. Qed.

Example SetDefaults_without_a_host :
  returned (Sample.run_SetDefaults (Sample.legacy "" false))
  = Some "ingress.host required, but not set".
Proof. reflexivity. Qed.

Example getContainerByName_with_duplicates :
  getContainerByName [Sample.proxy; Sample.app_first; Sample.app_second] "mattermost"
  = Some Sample.app_first.
Proof. reflexivity. Qed.

Example getContainerByName_on_nothing :
  getContainerByName [] "mattermost" = None
  ∧ GetMattermostAppContainer [Sample.proxy] = None.
Proof. split; reflexivity. Qed.

Example ReplaceAll_without_overlap :
  GoStrings.ReplaceAll "aaa" "aa" "b" = "ba"
  ∧ GoStrings.ReplaceAll "chat.example.com" "." "-" = "chat-example-com".
Proof. split; reflexivity. Qed.

Example MattermostLabels_app_overridden :
  MattermostLabels
    (Sample.structured {| Enabled := false; Host := ""; Annotations := ∅;
                          TLSSecret := "" |}) "team-a" !! "app"
  = Some "custom".
Proof. vm_compute. reflexivity. Qed.

(** * Further properties of the code *)

(** ** What [SetDefaults] keeps and what it establishes *)

Section DefaultingFrame.

Context {FileStore Database : Type}.
Variable FileStore_SetDefaults : FileStore → FileStore.
Variable Database_SetDefaults : Database → Database.

Local Abbreviation resource := (Mattermost FileStore Database).
Local Abbreviation host_missing mm :=
  (IngressEnabled mm && String.eqb (GetIngressHost mm) "").

(** X1. A successful call delegates exactly twice, to the file store first
    and to the database second, each method running once on its own field;
    the name of the resource, its ingress settings (structured and legacy)
    and its resource labels are as before. *)
Theorem SetDefaults_success_frame (mm : resource) :
  let out := call_SetDefaults FileStore_SetDefaults Database_SetDefaults mm in
  returned out = None →
  delegated out = [FileStore_SetDefaults_call; Database_SetDefaults_call]
  ∧ FileStore_ (Spec (after out)) = FileStore_SetDefaults (FileStore_ (Spec mm))
  ∧ Database_ (Spec (after out)) = Database_SetDefaults (Database_ (Spec mm))
  ∧ Name (after out) = Name mm
  ∧ Ingress (Spec (after out)) = Ingress (Spec mm)
  ∧ IngressName (Spec (after out)) = IngressName (Spec mm)
  ∧ IngressAnnotations (Spec (after out)) = IngressAnnotations (Spec mm)
  ∧ UseIngressTLS (Spec (after out)) = UseIngressTLS (Spec mm)
  ∧ ResourceLabels (Spec (after out)) = ResourceLabels (Spec mm).
Proof.
  intros out H. subst out.
  apply (returned_nil_iff FileStore_SetDefaults Database_SetDefaults) in H.
  rewrite (SetDefaults_accepted _ _ mm H). simpl. done.
Qed.

(** X2. Whether the call succeeds or not, everything derived from the
    resource by the other methods of the file reads the same afterwards:
    the four resolved ingress values, the full labels and the production
    deployment name. *)
Theorem SetDefaults_preserves_views (mm : resource) (name : string) :
  let out := call_SetDefaults FileStore_SetDefaults Database_SetDefaults mm in
  IngressEnabled (after out) = IngressEnabled mm
  ∧ GetIngressHost (after out) = GetIngressHost mm
  ∧ GetIngresAnnotations (after out) = GetIngresAnnotations mm
  ∧ GetIngressTLSSecret (after out) = GetIngressTLSSecret mm
  ∧ MattermostLabels (after out) name = MattermostLabels mm name
  ∧ GetProductionDeploymentName (after out) = GetProductionDeploymentName mm.
Proof.
  intros out. subst out.
  destruct (host_missing mm) eqn:H.
  - rewrite (SetDefaults_refused _ _ mm H). simpl. done.
  - rewrite (SetDefaults_accepted _ _ mm H). simpl. done.
Qed.

(** X3. The resource a successful call leaves behind is complete: image,
    version and pull policy are not empty, and if its ingress is enabled it
    has a host. *)
Theorem SetDefaults_result_complete (mm : resource) :
  let out := call_SetDefaults FileStore_SetDefaults Database_SetDefaults mm in
  returned out = None →
  Image (Spec (after out)) ≠ ""
  ∧ Version (Spec (after out)) ≠ ""
  ∧ ImagePullPolicy (Spec (after out)) ≠ ""
  ∧ (IngressEnabled (after out) = true → GetIngressHost (after out) ≠ "").
Proof.
  intros out H. subst out.
  apply (returned_nil_iff FileStore_SetDefaults Database_SetDefaults) in H.
  rewrite (SetDefaults_accepted _ _ mm H). simpl.
  split; [|split; [|split]].
  - destruct (String.eqb (Image (Spec mm)) "") eqn:E; [done|].
    by apply String.eqb_neq.
  - destruct (String.eqb (Version (Spec mm)) "") eqn:E; [done|].
    by apply String.eqb_neq.
  - destruct (String.eqb (ImagePullPolicy (Spec mm)) "") eqn:E; [done|].
    by apply String.eqb_neq.
  - change (IngressEnabled mm = true → GetIngressHost mm ≠ "").
    intros He Hh. rewrite He in H. simpl in H.
    apply String.eqb_neq in H. by apply H.
Qed.

(** X4. Whether [SetDefaults] returns an error is decided by the [Ingress]
    object and [IngressName] alone: two resources that agree on these two
    fields get the same answer, whatever else they hold and whatever the
    delegated methods do. *)
Theorem SetDefaults_verdict_by_ingress_fields
    (other_FileStore_SetDefaults : FileStore → FileStore)
    (other_Database_SetDefaults : Database → Database)
    (mm other : resource) :
  Ingress (Spec mm) = Ingress (Spec other) →
  IngressName (Spec mm) = IngressName (Spec other) →
  returned (call_SetDefaults FileStore_SetDefaults Database_SetDefaults mm)
  = returned (call_SetDefaults other_FileStore_SetDefaults other_Database_SetDefaults
                other).
Proof.
  intros Hi Hn.
  assert (E : host_missing mm = host_missing other).
  { unfold IngressEnabled, GetIngressHost. by rewrite Hi, Hn. }
  destruct (host_missing other) eqn:H.
  - by rewrite (SetDefaults_refused _ _ mm E), (SetDefaults_refused _ _ other H).
  - by rewrite (SetDefaults_accepted _ _ mm E), (SetDefaults_accepted _ _ other H).
Qed.

(** X5. The image reference of a defaulted resource: with image and version
    both given it is the reference of the resource as submitted; with the
    version left empty it is a tag reference to the default version, and
    with both left empty it is the default image at the default version. *)
Theorem GetImageName_after_SetDefaults (mm : resource) :
  let out := call_SetDefaults FileStore_SetDefaults Database_SetDefaults mm in
  returned out = None →
  (Image (Spec mm) ≠ "" → Version (Spec mm) ≠ "" →
     GetImageName (after out) = GetImageName mm)
  ∧ (Version (Spec mm) = "" →
       GetImageName (after out) = Image (Spec (after out)) +:+ ":5.37.1")
  ∧ (Image (Spec mm) = "" → Version (Spec mm) = "" →
       GetImageName (after out) = "mattermost/mattermost-enterprise-edition:5.37.1").
Proof.
  intros out H. subst out.
  apply (returned_nil_iff FileStore_SetDefaults Database_SetDefaults) in H.
  rewrite (SetDefaults_accepted _ _ mm H). unfold GetImageName. simpl.
  split; [|split].
  - intros Hi Hv. apply String.eqb_neq in Hi, Hv. by rewrite Hi, Hv.
  - intros ->. reflexivity.
  - intros -> ->. reflexivity.
Qed.

End DefaultingFrame.

(** ** How the three label maps relate *)

Section LabelRelations.

Context {FileStore Database : Type}.

Local Abbreviation resource := (Mattermost FileStore Database).

Lemma selector_lookup (name k : string) :
  MattermostSelectorLabels name !! k =
    if decide (k = "app") then Some MattermostAppContainerName
    else if decide (k = ClusterLabel) then Some name
    else if decide (k = ClusterResourceLabel) then Some name
    else None.
Proof.
  unfold MattermostSelectorLabels, MattermostResourceLabels.
  repeat case_decide; subst.
  - apply lookup_insert_eq.
  - rewrite lookup_insert_ne by done. apply lookup_insert_eq.
  - rewrite !lookup_insert_ne by done. apply lookup_singleton_eq.
  - rewrite !lookup_insert_ne by done. by apply lookup_singleton_ne.
Qed.

Lemma full_lookup (mm : resource) (name k : string) :
  MattermostLabels mm name !! k =
    match ResourceLabels (Spec mm) !! k with
    | Some v => Some v
    | None => MattermostSelectorLabels name !! k
    end.
Proof.
  rewrite MattermostLabels_eq, lookup_union.
  by destruct (ResourceLabels (Spec mm) !! k), (MattermostSelectorLabels name !! k).
Qed.

(** X6. The selector labels select what carries the full labels exactly
    when [ResourceLabels] leaves the three reserved keys alone or repeats
    their values: every selector label is among the full labels if and only
    if [ResourceLabels] maps the resource and the cluster key, where it has
    them, to the installation name and ["app"] to the container name. *)
Theorem selector_matches_full_labels_iff (mm : resource) (name : string) :
  MattermostSelectorLabels name ⊆ MattermostLabels mm name ↔
    (∀ v, ResourceLabels (Spec mm) !! ClusterResourceLabel = Some v → v = name)
    ∧ (∀ v, ResourceLabels (Spec mm) !! ClusterLabel = Some v → v = name)
    ∧ (∀ v, ResourceLabels (Spec mm) !! "app" = Some v → v = MattermostAppContainerName).
Proof.
  rewrite map_subseteq_spec. split.
  - intros H. split; [|split]; intros v Hv.
    + specialize (H ClusterResourceLabel name).
      rewrite full_lookup, Hv, selector_lookup in H. simpl in H.
      specialize (H eq_refl). by injection H.
    + specialize (H ClusterLabel name).
      rewrite full_lookup, Hv, selector_lookup in H. simpl in H.
      specialize (H eq_refl). by injection H.
    + specialize (H "app" MattermostAppContainerName).
      rewrite full_lookup, Hv, selector_lookup in H. simpl in H.
      specialize (H eq_refl). by injection H.
  - intros (Hr & Hc & Ha) k x Hk. rewrite full_lookup.
    destruct (ResourceLabels (Spec mm) !! k) as [v|] eqn:E; [|done].
    rewrite selector_lookup in Hk. repeat case_decide; subst; try done.
    + by rewrite (Ha v E).
    + by rewrite (Hc v E).
    + by rewrite (Hr v E).
Qed.

(** X7. The keys of the full labels are those of [ResourceLabels] together
    with the three reserved ones, so there are at least three labels and at
    most three more than [ResourceLabels] has; without [ResourceLabels] the
    full labels are the selector labels. *)
Theorem MattermostLabels_keys (mm : resource) (name : string) :
  dom (MattermostLabels mm name)
    =@{gset string} dom (ResourceLabels (Spec mm))
                    ∪ {[ ClusterResourceLabel; ClusterLabel; "app" ]}
  ∧ (3 ≤ size (MattermostLabels mm name))%nat
  ∧ (size (ResourceLabels (Spec mm)) ≤ size (MattermostLabels mm name))%nat
  ∧ (size (MattermostLabels mm name) ≤ 3 + size (ResourceLabels (Spec mm)))%nat
  ∧ (ResourceLabels (Spec mm) = ∅ →
       MattermostLabels mm name = MattermostSelectorLabels name).
Proof.
  assert (Hd : dom (MattermostSelectorLabels name)
               =@{gset string} {[ ClusterResourceLabel; ClusterLabel; "app" ]}).
  { unfold MattermostSelectorLabels, MattermostResourceLabels.
    rewrite !dom_insert_L, dom_singleton_L. set_solver. }
  assert (Hs : size (dom (MattermostSelectorLabels name) : gset string) = 3).
  { rewrite size_dom. unfold MattermostSelectorLabels, MattermostResourceLabels.
    rewrite !map_size_insert_None, map_size_singleton; [done| |].
    - by rewrite lookup_singleton_ne.
    - rewrite lookup_insert_ne by done. by rewrite lookup_singleton_ne. }
  rewrite MattermostLabels_eq.
  rewrite <- !(size_dom (D := gset string)), dom_union_L, <- Hd, <- Hs.
  generalize (dom (MattermostSelectorLabels name) : gset string).
  generalize (dom (ResourceLabels (Spec mm)) : gset string).
  intros user reserved.
  split; [done|]. split; [|split; [|split]].
  - apply subseteq_size, union_subseteq_r.
  - apply subseteq_size, union_subseteq_l.
  - rewrite size_union_alt.
    assert (Hle : (size (reserved ∖ user) ≤ size reserved)%nat)
      by (apply subseteq_size; intros k [Hk _]%elem_of_difference; exact Hk).
    lia.
  - intros ->. by rewrite (left_id_L ∅ (∪)).
Qed.

(** X8. Installations do not share labels. Different names give different
    resource labels and different selector labels, and the selector of one
    installation never matches the full labels of another whose
    [ResourceLabels] leave the resource key or the cluster key alone. *)
Theorem labels_separate_installations (mm : resource) (n1 n2 : string) :
  (MattermostResourceLabels n1 = MattermostResourceLabels n2 → n1 = n2)
  ∧ (MattermostSelectorLabels n1 = MattermostSelectorLabels n2 → n1 = n2)
  ∧ (ResourceLabels (Spec mm) !! ClusterResourceLabel = None
     ∨ ResourceLabels (Spec mm) !! ClusterLabel = None →
     MattermostSelectorLabels n1 ⊆ MattermostLabels mm n2 → n1 = n2).
Proof.
  split; [|split].
  - intros E. apply (f_equal (λ m : gmap string string, m !! ClusterResourceLabel)) in E.
    unfold MattermostResourceLabels in E. rewrite !lookup_singleton_eq in E.
    by injection E.
  - intros E. apply (f_equal (λ m : gmap string string, m !! ClusterLabel)) in E.
    rewrite !selector_lookup in E. simpl in E. by injection E.
  - rewrite map_subseteq_spec. intros [Hk|Hk] H.
    + specialize (H ClusterResourceLabel n1).
      rewrite full_lookup, Hk, !selector_lookup in H. simpl in H.
      specialize (H eq_refl). by injection H.
    + specialize (H ClusterLabel n1).
      rewrite full_lookup, Hk, !selector_lookup in H. simpl in H.
      specialize (H eq_refl). by injection H.
Qed.

(** X9. The resource labels are part of the selector labels, and they are
    part of the full labels exactly when [ResourceLabels] does not map the
    resource key to something else than the installation name. *)
Theorem resource_labels_within (mm : resource) (name : string) :
  MattermostResourceLabels name ⊆ MattermostSelectorLabels name
  ∧ (MattermostResourceLabels name ⊆ MattermostLabels mm name ↔
       ∀ v, ResourceLabels (Spec mm) !! ClusterResourceLabel = Some v → v = name).
Proof.
  unfold MattermostResourceLabels at 1 2. rewrite !map_subseteq_spec. split.
  - intros k x [<- <-]%lookup_singleton_Some. by rewrite selector_lookup.
  - split.
    + intros H v Hv. specialize (H ClusterResourceLabel name (lookup_singleton_eq _ _)).
      rewrite full_lookup, Hv in H. by injection H.
    + intros H k x [<- <-]%lookup_singleton_Some. rewrite full_lookup.
      destruct (ResourceLabels (Spec mm) !! ClusterResourceLabel) as [v|] eqn:E.
      * by rewrite (H v eq_refl).
      * by rewrite selector_lookup.
Qed.

End LabelRelations.

(** ** The synthesized TLS secret name *)

Section SecretName.

Context {FileStore Database : Type}.

Local Abbreviation resource := (Mattermost FileStore Database).

Lemma replace_every_byte_length (old new : Ascii.ascii) (s : string) :
  String.length (replace_every_byte old new s) = String.length s.
Proof. induction s as [|c s IH]; simpl; [done | by rewrite IH]. Qed.

Lemma length_app (a b : string) :
  String.length (a +:+ b) = String.length a + String.length b.
Proof. induction a as [|c a IH]; simpl; [done | by rewrite IH]. Qed.

Lemma Contains_cons (c : Ascii.ascii) (s sub : string) :
  GoStrings.Contains (String c s) sub
  = GoStrings.HasPrefix (String c s) sub || GoStrings.Contains s sub.
Proof. reflexivity. Qed.

(** No ['.'] is left once every ['.'] has become ['-']. *)
Lemma no_dot_after_replacing (s suffix : string) :
  GoStrings.Contains suffix "." = false →
  GoStrings.Contains (replace_every_byte "."%char "-"%char s +:+ suffix) "." = false.
Proof.
  intros Hs. induction s as [|c s IH]; [exact Hs|].
  simpl replace_every_byte.
  change (String ?a ?b +:+ ?t) with (String a (b +:+ t)).
  rewrite Contains_cons, IH, orb_false_r.
  cbn [GoStrings.HasPrefix]. rewrite andb_true_r.
  destruct (Ascii.eqb c ".") eqn:E; [reflexivity | exact E].
Qed.

(** A string without ['.'] is left as it is. *)
Lemma replace_every_byte_absent (s : string) :
  GoStrings.Contains s "." = false →
  replace_every_byte "."%char "-"%char s = s.
Proof.
  induction s as [|c s IH]; [done|].
  rewrite Contains_cons. cbn [GoStrings.HasPrefix replace_every_byte].
  rewrite andb_true_r. intros [Hc Hs]%orb_false_iff.
  by rewrite Hc, (IH Hs).
Qed.

(** X10. With the [Ingress] object absent and [UseIngressTLS] set, the TLS
    secret name is never empty, is nine bytes longer than the legacy host
    and holds no ['.']; for a host without ['.'] it is the host followed by
    ["-tls-cert"]. *)
Theorem legacy_TLS_secret_shape (mm : resource) :
  Ingress (Spec mm) = None →
  UseIngressTLS (Spec mm) = true →
  GetIngressTLSSecret mm ≠ ""
  ∧ String.length (GetIngressTLSSecret mm) = String.length (IngressName (Spec mm)) + 9
  ∧ GoStrings.Contains (GetIngressTLSSecret mm) "." = false
  ∧ (GoStrings.Contains (IngressName (Spec mm)) "." = false →
       GetIngressTLSSecret mm = IngressName (Spec mm) +:+ "-tls-cert").
Proof.
  intros Hi Hu.
  assert (E : GetIngressTLSSecret mm
              = replace_every_byte "."%char "-"%char (IngressName (Spec mm))
                +:+ "-tls-cert").
  { unfold GetIngressTLSSecret, defaultTLSSecret, GetIngressHost.
    rewrite Hi, Hu. by rewrite ReplaceAll_one_byte. }
  assert (Hlen : String.length (GetIngressTLSSecret mm)
                 = String.length (IngressName (Spec mm)) + 9).
  { by rewrite E, length_app, replace_every_byte_length. }
  split; [|split; [exact Hlen | split]].
  - intros Hempty. rewrite Hempty in Hlen. simpl in Hlen. lia.
  - rewrite E. by apply no_dot_after_replacing.
  - intros Hn. by rewrite E, (replace_every_byte_absent _ Hn).
Qed.

End SecretName.

(** ** More on the container lookup *)

Section ContainerLookupMore.

(** X11. The lookup returns the head of the containers of the given name,
    taken in list order. *)
Theorem getContainerByName_head_filter (containers : list corev1.Container)
    (name : string) :
  getContainerByName containers name
  = head (filter (λ c, corev1.Name c = name) containers).
Proof.
  induction containers as [|c cs IH]; [done|].
  cbn [getContainerByName]. rewrite filter_cons.
  destruct (String.eqb (corev1.Name c) name) eqn:E.
  - apply String.eqb_eq in E. by rewrite decide_True.
  - apply String.eqb_neq in E. by rewrite decide_False.
Qed.

(** X12. On a list put together from two, the lookup answers from the first
    part whenever that part has a container of the name, and from the second
    part otherwise; so containers added behind a match never change the
    answer. *)
Theorem getContainerByName_app (front back : list corev1.Container) (name : string) :
  getContainerByName (front ++ back)%list name
  = match getContainerByName front name with
    | Some c => Some c
    | None => getContainerByName back name
    end.
Proof.
  induction front as [|c front IH]; [done|].
  cbn [app getContainerByName].
  by destruct (String.eqb (corev1.Name c) name).
Qed.

Lemma same_name_same_container (containers : list corev1.Container)
    (c c' : corev1.Container) :
  NoDup (corev1.Name <$> containers) →
  c ∈ containers → c' ∈ containers → corev1.Name c = corev1.Name c' → c = c'.
Proof.
  induction containers as [|c0 cs IH]; intros Hnd Hc Hc' Hn.
  - by apply elem_of_nil in Hc.
  - rewrite fmap_cons in Hnd. apply NoDup_cons in Hnd as [Hfresh Hnd].
    apply elem_of_cons in Hc as [->|Hc]; apply elem_of_cons in Hc' as [->|Hc'].
    + done.
    + destruct Hfresh. rewrite Hn. by apply list_elem_of_fmap_2.
    + destruct Hfresh. rewrite <- Hn. by apply list_elem_of_fmap_2.
    + by apply IH.
Qed.

(** X13. When no two containers of the list share a name, the lookup finds
    a container exactly if it is in the list under that name, wherever it
    stands: reordering the list does not change the answer. *)
Theorem getContainerByName_unique_names (containers reordered : list corev1.Container)
    (name : string) :
  NoDup (corev1.Name <$> containers) →
  (∀ c, getContainerByName containers name = Some c ↔
          c ∈ containers ∧ corev1.Name c = name)
  ∧ (containers ≡ₚ reordered →
       getContainerByName reordered name = getContainerByName containers name).
Proof.
  assert (Hfind : ∀ cs : list corev1.Container, NoDup (corev1.Name <$> cs) →
            ∀ c, getContainerByName cs name = Some c ↔ c ∈ cs ∧ corev1.Name c = name).
  { intros cs Hnd c. split.
    - intros (before & rest & -> & Hn & _)%getContainerByName_Some.
      split; [|done]. apply elem_of_app. right. left.
    - intros [Hin Hn].
      destruct (getContainerByName cs name) as [c'|] eqn:E.
      + pose proof E as (before & rest & Hl & Hn' & _)%getContainerByName_Some.
        f_equal. apply (same_name_same_container cs); [done| |done|congruence].
        rewrite Hl. apply elem_of_app. right. left.
      + destruct (proj1 (getContainerByName_None cs name) E c Hin Hn). }
  intros Hnd. split; [by apply Hfind|].
  intros Hp. apply option_eq. intros c.
  rewrite (Hfind containers Hnd), (Hfind reordered).
  - by rewrite Hp.
  - by rewrite <- Hp.
Qed.

(** X14. The application container found in a list, when there is one, is
    an element of the list named ["mattermost"], and there is none exactly
    when no container of the list has that name; the lookup in a deployment
    is this lookup on the containers of its pod template. *)
Theorem GetMattermostAppContainer_found (containers : list corev1.Container) :
  (∀ c, GetMattermostAppContainer containers = Some c →
        c ∈ containers ∧ corev1.Name c = "mattermost")
  ∧ (GetMattermostAppContainer containers = None ↔
       ∀ c, c ∈ containers → corev1.Name c ≠ "mattermost")
  ∧ (∀ deployment,
       corev1.Containers (corev1.Spec (appsv1.Template (appsv1.Spec deployment)))
         = containers →
       GetMattermostAppContainerFromDeployment deployment
         = GetMattermostAppContainer containers).
Proof.
  unfold GetMattermostAppContainerFromDeployment, getDeploymentContainerByName,
    GetMattermostAppContainer, MattermostAppContainerName.
  split; [|split].
  - intros c (before & rest & -> & Hn & _)%getContainerByName_Some.
    split; [|done]. apply elem_of_app. right. left.
  - apply getContainerByName_None.
  - by intros deployment <-.
Qed.

End ContainerLookupMore.

(** ** The further properties at work on concrete resources *)

Lemma SetDefaults_success_frame_witness :
  delegated (Sample.run_SetDefaults (Sample.legacy "chat.example.com" true))
    = [FileStore_SetDefaults_call; Database_SetDefaults_call]
  ∧ IngressName (Spec (after (Sample.run_SetDefaults
                                 (Sample.legacy "chat.example.com" true))))
    = "chat.example.com".
Proof.
  pose proof (SetDefaults_success_frame
                Sample.FileStore_SetDefaults Sample.Database_SetDefaults
                (Sample.legacy "chat.example.com" true) eq_refl)
    as (Hd & _ & _ & _ & _ & Hn & _).
  split; [exact Hd | exact Hn].
Defined.

Lemma SetDefaults_result_complete_witness :
  Image (Spec (after (Sample.run_SetDefaults (Sample.legacy "chat.example.com" true))))
    ≠ ""
  ∧ GetIngressHost (after (Sample.run_SetDefaults
                             (Sample.legacy "chat.example.com" true))) ≠ "".
Proof.
  pose proof (SetDefaults_result_complete
                Sample.FileStore_SetDefaults Sample.Database_SetDefaults
                (Sample.legacy "chat.example.com" true) eq_refl)
    as (Hi & _ & _ & Hh).
  split; [exact Hi | exact (Hh eq_refl)].
Defined.

Lemma SetDefaults_verdict_by_ingress_fields_witness :
  returned (Sample.run_SetDefaults (Sample.legacy "" true))
  = returned (call_SetDefaults (λ fs, fs) (λ db, db) (Sample.legacy "" false)).
Proof.
  apply (SetDefaults_verdict_by_ingress_fields
           Sample.FileStore_SetDefaults Sample.Database_SetDefaults
           (λ fs, fs) (λ db, db)
           (Sample.legacy "" true) (Sample.legacy "" false));
    reflexivity.
Defined.

Lemma GetImageName_after_SetDefaults_witness :
  GetImageName (after (Sample.run_SetDefaults (Sample.pinned "" "")))
  = "mattermost/mattermost-enterprise-edition:5.37.1".
Proof.
  apply (GetImageName_after_SetDefaults
           Sample.FileStore_SetDefaults Sample.Database_SetDefaults
           (Sample.pinned "" "") eq_refl);
    reflexivity.
Defined.

Lemma selector_matches_full_labels_iff_witness :
  MattermostSelectorLabels "team-a" ⊆ MattermostLabels (Sample.pinned "" "") "team-a"
  ∧ ¬ MattermostSelectorLabels "team-a"
      ⊆ MattermostLabels
          (Sample.structured {| Enabled := false; Host := ""; Annotations := ∅;
                                TLSSecret := "" |}) "team-a".
Proof.
  split.
  - apply (proj2 (selector_matches_full_labels_iff (Sample.pinned "" "") "team-a")).
    split; [|split]; intros v Hv; vm_compute in Hv; discriminate Hv.
  - intros H.
    apply (proj1 (selector_matches_full_labels_iff _ "team-a")) in H
      as (_ & _ & Ha).
    specialize (Ha "custom" eq_refl). discriminate Ha.
Defined.

Lemma MattermostLabels_keys_witness :
  MattermostLabels (Sample.legacy "chat.example.com" false) "team-a"
  = MattermostSelectorLabels "team-a".
Proof.
  apply (MattermostLabels_keys (Sample.legacy "chat.example.com" false) "team-a").
  reflexivity.
Defined.

Lemma labels_separate_installations_witness :
  ¬ MattermostSelectorLabels "team-b" ⊆ MattermostLabels (Sample.pinned "" "") "team-a".
Proof.
  intros H.
  apply (proj2 (proj2 (labels_separate_installations
                         (Sample.pinned "" "") "team-b" "team-a"))) in H.
  - discriminate H.
  - left. vm_compute. reflexivity.
Defined.

Lemma resource_labels_within_witness :
  MattermostResourceLabels "team-a" ⊆ MattermostLabels (Sample.pinned "" "") "team-a".
Proof.
  apply (proj2 (resource_labels_within (Sample.pinned "" "") "team-a")).
  intros v Hv. vm_compute in Hv. discriminate Hv.
Defined.

Lemma legacy_TLS_secret_shape_witness :
  String.length (GetIngressTLSSecret (Sample.legacy "chat.example.com" true)) = 25
  ∧ GetIngressTLSSecret (Sample.legacy "localhost" true) = "localhost-tls-cert".
Proof.
  split.
  - apply (legacy_TLS_secret_shape (Sample.legacy "chat.example.com" true)
             eq_refl eq_refl).
  - apply (legacy_TLS_secret_shape (Sample.legacy "localhost" true) eq_refl eq_refl).
    reflexivity.
Defined.

Lemma getContainerByName_unique_names_witness :
  getContainerByName [Sample.app_second; Sample.proxy] "mattermost"
  = getContainerByName [Sample.proxy; Sample.app_second] "mattermost".
Proof.
  apply (getContainerByName_unique_names
           [Sample.proxy; Sample.app_second] [Sample.app_second; Sample.proxy]
           "mattermost").
  - by apply (bool_decide_unpack _).
  - apply perm_swap.
Defined.

Lemma GetMattermostAppContainer_found_witness :
  Sample.app_first ∈ [Sample.proxy; Sample.app_first; Sample.app_second]
  ∧ corev1.Name Sample.app_first = "mattermost".
Proof.
  apply (proj1 (GetMattermostAppContainer_found
                  [Sample.proxy; Sample.app_first; Sample.app_second])).
  reflexivity.
Defined.

(** ** Hosts that share a secret name *)

Section SecretClash.

Context {FileStore Database : Type}.

Local Abbreviation resource := (Mattermost FileStore Database).

Lemma app_same_suffix (a b t : string) : a +:+ t = b +:+ t → a = b.
Proof.
  revert b. induction a as [|c a IH]; intros [|d b] E.
  - done.
  - change (t = String d (b +:+ t)) in E.
    apply (f_equal String.length) in E.
    cbn [String.length] in E. rewrite length_app in E. lia.
  - change (String c (a +:+ t) = t) in E.
    apply (f_equal String.length) in E.
    cbn [String.length] in E. rewrite length_app in E. lia.
  - change (String c (a +:+ t) = String d (b +:+ t)) in E.
    injection E as -> E. by rewrite (IH b E).
Qed.

(** X15. Two resources on legacy TLS get the same secret name exactly when
    their hosts are equal once every ['.'] is read as ['-']; hosts that
    differ only in that, such as ["a.b"] and ["a-b"], share one. *)
Theorem legacy_TLS_secret_shared_iff (mm1 mm2 : resource) :
  Ingress (Spec mm1) = None → UseIngressTLS (Spec mm1) = true →
  Ingress (Spec mm2) = None → UseIngressTLS (Spec mm2) = true →
  (GetIngressTLSSecret mm1 = GetIngressTLSSecret mm2 ↔
     replace_every_byte "."%char "-"%char (IngressName (Spec mm1))
     = replace_every_byte "."%char "-"%char (IngressName (Spec mm2)))
  ∧ (IngressName (Spec mm1) = "a.b" → IngressName (Spec mm2) = "a-b" →
       GetIngressTLSSecret mm1 = GetIngressTLSSecret mm2).
Proof.
  intros Hi1 Hu1 Hi2 Hu2.
  unfold GetIngressTLSSecret, defaultTLSSecret, GetIngressHost.
  rewrite Hi1, Hu1, Hi2, Hu2, !ReplaceAll_one_byte.
  split.
  - split; [apply app_same_suffix | by intros ->].
  - by intros -> ->.
Qed.

End SecretClash.

Lemma legacy_TLS_secret_shared_iff_witness :
  GetIngressTLSSecret (Sample.legacy "chat.example.com" true)
  = GetIngressTLSSecret (Sample.legacy "chat-example.com" true).
Proof.
  apply (proj1 (legacy_TLS_secret_shared_iff
                  (Sample.legacy "chat.example.com" true)
                  (Sample.legacy "chat-example.com" true)
                  eq_refl eq_refl eq_refl eq_refl)).
  reflexivity.
Defined.
